(** * dynamic_led.py: the thermal LED control loop of host [dragon]

    The script polls [liquidctl] for the liquid temperature of the cooler,
    picks one of two LED colours and sets it, once a minute, forever:

<<
    while True:
        status = json.loads(subprocess.check_output(
                     ['liquidctl', '--match', 'h100i', 'status', '--json']))
        liquid_temp = status[0]['status'][0]['value']
        color = '0080ff' if liquid_temp < 40 else 'ff0000'
        subprocess.run(['liquidctl', '--match', 'h100i',
                        'set', 'led', 'color', 'fixed', color])
        time.sleep(60)
>>

    The embedding has three layers: the Python objects that [json.loads]
    returns together with the two operators the script applies to them
    (subscript and [<]); the two pure lines of the loop body
    ([liquid_temp], [color]); and the loop itself, run in a small monad
    that records every process invocation and every sleep in a history
    and stops at the first uncaught exception.

    The file gives all definitions first: the Python layer, the vocabulary
    in which the specification speaks about readings and documents, a few
    concrete machines to run the script on, and the script.  The results
    follow: the cycle and the loop, the comparison of doubles against 40.0,
    the colour decision, and finally each result applied to a concrete
    run. *)

From Stdlib Require Import ZArith QArith Qpower List String Ascii Bool Lia Lqa.
From Stdlib Require Import Floats.SpecFloat.
Import ListNotations.

Set Warnings "-register-all".
Local Open Scope string_scope.
Local Open Scope Z_scope.

(** ** Python values and exceptions *)

Module Py.

(** The exceptions that can leave the loop body.  [ValueError] stands for
    [json.JSONDecodeError] and [UnicodeDecodeError], its two subclasses that
    [json.loads] raises; [OSError] for [FileNotFoundError] and
    [PermissionError], raised when the child process cannot be started. *)
Inductive exn : Type :=
| CalledProcessError (returncode : Z)
| OSError
| ValueError
| IndexError
| KeyError
| TypeError.

Inductive result (A : Type) : Type :=
| Ok (a : A)
| Raise (e : exn).
Arguments Ok {A} a.
Arguments Raise {A} e.

Definition bind {A B} (r : result A) (k : A -> result B) : result B :=
  match r with
  | Ok a => k a
  | Raise e => Raise e
  end.

(** What [json.loads] builds: [None], [bool], [int] (unbounded), [float]
    (an IEEE 754 binary64, which the decoder also produces for the literals
    [NaN], [Infinity] and [-Infinity]), [str], [list] and [dict].  A decoded
    dict has string keys only, each bound once, in document order.  A str
    is kept as its bytes: the script never looks inside one, only at
    whether indexing it succeeds. *)
Inductive obj : Type :=
| PyNone
| PyBool (b : bool)
| PyInt (n : Z)
| PyFloat (f : spec_float)
| PyStr (s : string)
| PyList (xs : list obj)
| PyDict (kvs : list (string * obj)).

Definition prec : Z := 53.
Definition emax : Z := 1024.

(** The doubles that exist: canonical mantissa and exponent in range. *)
Definition is_double (f : spec_float) : bool := valid_binary prec emax f.

(** [PyLong_AsDouble]: exact for every int below 2^53 in magnitude. *)
Definition float_of_int (n : Z) : spec_float := binary_normalize prec emax n 0 false.

(** Sequence indexing, [xs[i]], negative [i] counting from the end. *)
Definition seq_index {A} (xs : list A) (i : Z) : option A :=
  let len := Z.of_nat (List.length xs) in
  if 0 <=? i then nth_error xs (Z.to_nat i)
  else if 0 <=? len + i then nth_error xs (Z.to_nat (len + i))
  else None.

Fixpoint dict_get (k : string) (kvs : list (string * obj)) : option obj :=
  match kvs with
  | [] => None
  | (k', v) :: rest => if String.eqb k k' then Some v else dict_get k rest
  end.

(** [o[i]] for an int [i].  A list or a str is indexed ([IndexError] out of
    range; a str yields a one-character str); a decoded dict has no int key;
    [None], bools and numbers are not subscriptable. *)
Definition getitem_int (o : obj) (i : Z) : result obj :=
  match o with
  | PyList xs =>
      match seq_index xs i with
      | Some x => Ok x
      | None => Raise IndexError
      end
  | PyStr s =>
      match seq_index (list_ascii_of_string s) i with
      | Some c => Ok (PyStr (String c EmptyString))
      | None => Raise IndexError
      end
  | PyDict _ => Raise KeyError
  | PyNone | PyBool _ | PyInt _ | PyFloat _ => Raise TypeError
  end.

(** [o[k]] for a str [k].  Only a dict accepts a str subscript: list and
    str indices must be integers, the rest is not subscriptable. *)
Definition getitem_str (o : obj) (k : string) : result obj :=
  match o with
  | PyDict kvs =>
      match dict_get k kvs with
      | Some v => Ok v
      | None => Raise KeyError
      end
  | PyNone | PyBool _ | PyInt _ | PyFloat _ | PyStr _ | PyList _ => Raise TypeError
  end.

(** [o < n] for a small int literal [n] (the script's is 40).  An int is
    compared as an integer, a bool as the int it is ([False] is 0, [True] is
    1); for a float the interpreter converts [n] to a double and compares
    doubles, by the IEEE 754 order, in which every comparison with NaN is
    false; [<] is not supported between [None], str, list or dict and an
    int. *)
Definition lt_int (o : obj) (n : Z) : result bool :=
  match o with
  | PyInt a => Ok (a <? n)
  | PyBool b => Ok (Z.b2z b <? n)
  | PyFloat f => Ok (SFltb f (float_of_int n))
  | PyNone | PyStr _ | PyList _ | PyDict _ => Raise TypeError
  end.

End Py.

Import Py.

Declare Scope py_scope.
Delimit Scope py_scope with py.
Notation "x <- r ;; k" := (Py.bind r (fun x => k))
  (at level 100, r at next level, right associativity) : py_scope.
Local Open Scope py_scope.

(** ** The pure lines of the loop body *)

(** Line 7: [liquid_temp = status[0]['status'][0]['value']]. *)
Definition liquid_temp (status : obj) : result obj :=
  block <- getitem_int status 0 ;;
  entries <- getitem_str block "status" ;;
  entry <- getitem_int entries 0 ;;
  getitem_str entry "value".

(** Line 8: [color = '0080ff' if liquid_temp < 40 else 'ff0000']. *)
Definition color (liquid_temp : obj) : result string :=
  below <- lt_int liquid_temp 40 ;;
  Ok (if below then "0080ff" else "ff0000").

(** ** Processes, the clock and the loop *)

(** What the script does to the world, in program order. *)
Inductive event : Type :=
| CheckOutput (argv : list string)
| Run (argv : list string)
| Sleep (secs : Z).

Definition history := list event.

(** How an attempt to run a child process ends: it exits with a return code
    after writing [stdout], or it never starts (no such executable). *)
Inductive child : Type :=
| Exited (returncode : Z) (stdout : string)
| NotStarted.

(** A computation reads the history so far, extends it, and returns a value
    or raises. *)
Definition io (A : Type) : Type := history -> history * result A.

Definition io_bind {A B} (m : io A) (k : A -> io B) : io B :=
  fun h =>
    match m h with
    | (h', Ok a) => k a h'
    | (h', Raise e) => (h', Raise e)
    end.

Definition lift {A} (r : result A) : io A := fun h => (h, r).

Declare Scope io_scope.
Delimit Scope io_scope with io.
Notation "x <- m ;; k" := (io_bind m (fun x => k))
  (at level 100, m at next level, right associativity) : io_scope.

Definition status_argv : list string :=
  ["liquidctl"; "--match"; "h100i"; "status"; "--json"].

Definition set_argv (color : string) : list string :=
  ["liquidctl"; "--match"; "h100i"; "set"; "led"; "color"; "fixed"; color].

(** Where a run of the loop stands when the model stops following it:
    still [Running] (the cycles followed all completed), or [Terminated] by
    the exception that left the loop. *)
Inductive outcome : Type :=
| Running
| Terminated (e : exn).


(** The argument vectors of the [subprocess.run] calls among some events:
    the set-colour commands. *)
Definition set_colors (evs : list event) : list (list string) :=
  flat_map (fun ev => match ev with
                      | Run argv => [argv]
                      | CheckOutput _ | Sleep _ => []
                      end) evs.

(** The child processes among some events, in the order they were
    started. *)
Definition invocations (evs : list event) : list (list string) :=
  flat_map (fun ev => match ev with
                      | CheckOutput argv | Run argv => [argv]
                      | Sleep _ => []
                      end) evs.

(** The events of one cycle that ran to its end with the colour [c], and of
    several such cycles in a row. *)
Definition completed_cycle (c : string) : list event :=
  [CheckOutput status_argv; Run (set_argv c); Sleep 60].

Definition completed_cycles (cs : list string) : list event :=
  flat_map completed_cycle cs.

(** The seconds slept among some events. *)
Definition slept (evs : list event) : Z :=
  fold_right (fun ev total => match ev with
                              | Sleep secs => secs + total
                              | CheckOutput _ | Run _ => total
                              end) 0 evs.

Definition is_color (c : string) : Prop := c = "0080ff" \/ c = "ff0000".

(** ** What a reading denotes

    The specification speaks of a temperature below, or at or above, 40.0:
    a statement about the number a reading stands for, not about the
    comparison the interpreter runs.  An int denotes itself, a finite double
    [(s, m, e)] the rational [(-1)^s * m * 2^e], an infinite one an
    infinity, and NaN denotes nothing. *)

Inductive ext : Type :=
| NegInf
| Fin (q : Q)
| PosInf.

Definition finite_value (s : bool) (m : positive) (e : Z) : Q :=
  (inject_Z (cond_Zopp s (Zpos m)) * 2 ^ e)%Q.

Definition float_value (f : spec_float) : option ext :=
  match f with
  | S754_zero _ => Some (Fin 0%Q)
  | S754_infinity s => Some (if s then NegInf else PosInf)
  | S754_nan => None
  | S754_finite s m e => Some (Fin (finite_value s m e))
  end.

Definition reading_value (t : obj) : option ext :=
  match t with
  | PyInt n => Some (Fin (inject_Z n))
  | PyFloat f => float_value f
  | PyNone | PyBool _ | PyStr _ | PyList _ | PyDict _ => None
  end.

(** The readings the decoder can produce for a JSON number. *)
Definition is_reading (t : obj) : bool :=
  match t with
  | PyInt _ => true
  | PyFloat f => is_double f
  | PyNone | PyBool _ | PyStr _ | PyList _ | PyDict _ => false
  end.

Definition below (x : ext) (q : Q) : Prop :=
  match x with
  | NegInf => True
  | Fin v => (v < q)%Q
  | PosInf => False
  end.

Definition at_least (x : ext) (q : Q) : Prop :=
  match x with
  | NegInf => False
  | Fin v => (q <= v)%Q
  | PosInf => True
  end.

(** Two readings denote the same number. *)
Definition same_number (x y : ext) : Prop :=
  match x, y with
  | NegInf, NegInf | PosInf, PosInf => True
  | Fin a, Fin b => (a == b)%Q
  | _, _ => False
  end.

(** ** The vocabulary of the specification *)

(** The error taxonomy: a failure of the external command, or output that
    cannot be parsed or lacks the expected block, entry or value. *)
Inductive failure : Type :=
| ExternalCommandFailure
| MalformedOutput.

Definition classify (e : exn) : failure :=
  match e with
  | CalledProcessError _ | OSError => ExternalCommandFailure
  | ValueError | IndexError | KeyError | TypeError => MalformedOutput
  end.

(** The expected shape of the status output: a sequence of device blocks,
    each with a [status] field that is a sequence of entries, each with a
    [value] field. *)
Definition is_entry (o : obj) : bool :=
  match o with
  | PyDict kvs => match dict_get "value" kvs with Some _ => true | None => false end
  | _ => false
  end.

Definition is_block (o : obj) : bool :=
  match o with
  | PyDict kvs =>
      match dict_get "status" kvs with
      | Some (PyList entries) => forallb is_entry entries
      | _ => false
      end
  | _ => false
  end.

Definition well_formed (status : obj) : bool :=
  match status with
  | PyList blocks => forallb is_block blocks
  | _ => false
  end.

Definition zero_blocks (status : obj) : bool :=
  match status with
  | PyList [] => true
  | _ => false
  end.

Definition zero_entries (status : obj) : bool :=
  match status with
  | PyList (PyDict kvs :: _) =>
      match dict_get "status" kvs with
      | Some (PyList []) => true
      | _ => false
      end
  | _ => false
  end.

(** [blocks[0].status[0].value], by the shape of the document. *)
Definition first_value (status : obj) : option obj :=
  match status with
  | PyList (PyDict block :: _) =>
      match dict_get "status" block with
      | Some (PyList (PyDict entry :: _)) => dict_get "value" entry
      | _ => None
      end
  | _ => None
  end.

(** A JSON number decodes to an int or a float; [true] and [false] decode
    to the bools. *)
Definition is_json_number (o : obj) : bool :=
  match o with
  | PyInt _ | PyFloat _ => true
  | _ => false
  end.

Definition is_json_boolean (o : obj) : bool :=
  match o with
  | PyBool _ => true
  | _ => false
  end.

(** Six hexadecimal digits and nothing else. *)
Definition is_hex_digit (a : ascii) : bool :=
  let n := nat_of_ascii a in
  ((48 <=? n) && (n <=? 57) || (97 <=? n) && (n <=? 102)
   || (65 <=? n) && (n <=? 70))%nat.

Definition is_rgb_hex (c : string) : bool :=
  (String.length c =? 6)%nat && forallb is_hex_digit (list_ascii_of_string c).

(** ** Fixtures: readings, documents, machines and a decoder *)

Definition dq : string := String (ascii_of_nat 34) EmptyString.

(** The text [[{"status":[{"value":<number>}]}]]. *)
Definition report_text (number : string) : string :=
  "[{" ++ dq ++ "status" ++ dq ++ ":[{" ++ dq ++ "value" ++ dq ++ ":"
    ++ number ++ "}]}]".

(** What it decodes to. *)
Definition report (v : obj) : obj :=
  PyList [PyDict [("status", PyList [PyDict [("value", v)]])]].

(** The doubles nearest to 35.2 and 55.9, and 40.0 itself. *)
Definition cool : obj := PyFloat (S754_finite false 4953959590107546 (-47)).
Definition forty : obj := PyFloat (S754_finite false 5629499534213120 (-47)).
Definition hot : obj := PyFloat (S754_finite false 7867225599062835 (-47)).

Definition no_entries_text : string := "[{" ++ dq ++ "status" ++ dq ++ ":[]}]".

(** A decoder fixed on the documents used below: what [json.loads] returns
    for each of these texts.  Every other text is rejected. *)
Definition decoder (text : string) : result obj :=
  match dict_get text
          [ (report_text "35.2", report cool);
            (report_text "40.0", report forty);
            (report_text "55.9", report hot);
            (report_text "40", report (PyInt 40));
            (report_text "NaN", report (PyFloat S754_nan));
            (report_text "true", report (PyBool true));
            (report_text "null", report PyNone);
            ("[]", PyList []);
            (no_entries_text, PyList [PyDict [("status", PyList [])]]) ] with
  | Some document => Ok document
  | None => Raise ValueError
  end.

Fixpoint argv_eqb (a b : list string) : bool :=
  match a, b with
  | [], [] => true
  | x :: a', y :: b' => String.eqb x y && argv_eqb a' b'
  | _, _ => false
  end.

(** A machine whose [liquidctl] always answers the status query with the
    return code [rc_status] and the text [out], and every other command
    with the return code [rc_set] and no output. *)
Definition machine (rc_status : Z) (out : string) (rc_set : Z)
  : history -> list string -> child :=
  fun _ argv =>
    if argv_eqb argv status_argv then Exited rc_status out
    else Exited rc_set EmptyString.

(** A machine that reports 35.2 degrees for its first [good] cycles and from
    then on answers the status query with [rc_status] and [out]; its
    set-colour command always succeeds. *)
Definition worn_machine (good : nat) (rc_status : Z) (out : string)
  : history -> list string -> child :=
  fun h argv =>
    if argv_eqb argv status_argv then
      if (List.length h <? 3 * good)%nat then Exited 0 (report_text "35.2")
      else Exited rc_status out
    else Exited 0 EmptyString.

(** A machine whose [liquidctl] answers the status query with [out] and is
    gone by the time the set-colour command is started. *)
Definition vanishing_machine (out : string)
  : history -> list string -> child :=
  fun _ argv =>
    if argv_eqb argv status_argv then Exited 0 out else NotStarted.

(** A decoder that takes every text for the same document. *)
Definition fixed_decoder (document : obj) : string -> result obj :=
  fun _ => Ok document.

(** A machine without [liquidctl]. *)
Definition bare_machine : history -> list string -> child :=
  fun _ _ => NotStarted.

(** ** The script *)
Section Loop.

(** The machine the script runs on: what a child process started with
    [argv] does, given everything that happened before.  And [json.loads],
    which is library code: any decoder, raising or returning an object. *)
Variable spawn : history -> list string -> child.
Variable json_loads : string -> result obj.

(** [subprocess.check_output(argv)]: the child's stdout; raises
    [CalledProcessError] on a nonzero return code. *)
Definition check_output (argv : list string) : io string :=
  fun h =>
    let h' := (h ++ [CheckOutput argv])%list in
    match spawn h argv with
    | NotStarted => (h', Raise OSError)
    | Exited rc out =>
        if rc =? 0 then (h', Ok out) else (h', Raise (CalledProcessError rc))
    end.

(** [subprocess.run(argv)], with [check] left at its default [False]: the
    completed process, here its return code, whatever that code is. *)
Definition run (argv : list string) : io Z :=
  fun h =>
    let h' := (h ++ [Run argv])%list in
    match spawn h argv with
    | NotStarted => (h', Raise OSError)
    | Exited rc _ => (h', Ok rc)
    end.

(** [time.sleep(secs)]. *)
Definition sleep (secs : Z) : io unit :=
  fun h => ((h ++ [Sleep secs])%list, Ok tt).

(** Lines 6 to 10: one pass through the body of [while True]. *)
Definition cycle : io unit :=
  (out <- check_output status_argv ;;
   status <- lift (json_loads out) ;;
   liquid_temp <- lift (liquid_temp status) ;;
   color <- lift (color liquid_temp) ;;
   _ <- run (set_argv color) ;;
   sleep 60)%io.

(** Line 5: [while True].  The loop has no exit of its own; [fuel] bounds
    how many cycles the model follows. *)
Fixpoint main (fuel : nat) (h : history) : history * outcome :=
  match fuel with
  | O => (h, Running)
  | S fuel' =>
      match cycle h with
      | (h', Ok _) => main fuel' h'
      | (h', Raise e) => (h', Terminated e)
      end
  end.

(** Lines 6 and 7 on their own: the query, the decoding and the walk to
    the reading. *)
Definition read_temp : io obj :=
  (out <- check_output status_argv ;;
   status <- lift (json_loads out) ;;
   lift (liquid_temp status))%io.

(** The events that the cycle started at [h] adds to the history. *)
Definition cycle_events (h : history) : list event :=
  skipn (List.length h) (fst (cycle h)).

(** A machine and decoder on which nothing ever goes wrong: whatever
    happened before, the status query exits with 0 and output that decodes
    to a document whose reading can be compared with 40, and the set-colour
    command can be started. *)
Definition healthy : Prop :=
  (forall h, exists out status t c,
      spawn h status_argv = Exited 0 out /\
      json_loads out = Ok status /\
      liquid_temp status = Ok t /\
      color t = Ok c) /\
  (forall h c, spawn h (set_argv c) <> NotStarted).

(** The history right after the status query. *)
Local Abbreviation queried h := (h ++ [CheckOutput status_argv])%list.

(** The history after a whole cycle that chose [c]. *)
Local Abbreviation cycled h c :=
  (h ++ [CheckOutput status_argv; Run (set_argv c); Sleep 60])%list.

(** ** One cycle, step by step *)

Lemma skipn_length_app {A} (l l' : list A) :
  skipn (List.length l) (l ++ l')%list = l'.
Proof. induction l as [ | a l IH]; [reflexivity | exact IH]. Qed.

Lemma color_cases (t : obj) (c : string) :
  color t = Ok c -> c = "0080ff" \/ c = "ff0000".
Proof.
  unfold color. destruct (lt_int t 40) as [[ | ] | e]; cbn [Py.bind];
    intros H; try discriminate H; injection H as <-; auto.
Qed.

Lemma read_temp_spec (h : history) :
  read_temp h =
  (queried h,
   match spawn h status_argv with
   | NotStarted => Raise OSError
   | Exited rc out =>
       if rc =? 0 then (status <- json_loads out ;; liquid_temp status)
       else Raise (CalledProcessError rc)
   end).
Proof.
  unfold read_temp, io_bind, check_output, lift.
  destruct (spawn h status_argv) as [rc out | ]; [ | reflexivity].
  destruct (rc =? 0); [ | reflexivity].
  destruct (json_loads out) as [status | e]; reflexivity.
Qed.

(** The cycle is the query phase, then the decision, then the set-colour
    command, then the sleep; whatever raises ends it there. *)
Lemma cycle_spec (h : history) :
  cycle h =
  match read_temp h with
  | (h1, Raise e) => (h1, Raise e)
  | (h1, Ok t) =>
      match color t with
      | Raise e => (h1, Raise e)
      | Ok c =>
          match spawn h1 (set_argv c) with
          | NotStarted => ((h1 ++ [Run (set_argv c)])%list, Raise OSError)
          | Exited _ _ => ((h1 ++ [Run (set_argv c); Sleep 60])%list, Ok tt)
          end
      end
  end.
Proof.
  unfold cycle, read_temp, io_bind,
    check_output, run, sleep, lift.
  destruct (spawn h status_argv) as [rc out | ]; [ | reflexivity].
  destruct (rc =? 0); [ | reflexivity].
  destruct (json_loads out) as [status | e]; [ | reflexivity].
  destruct (liquid_temp status) as [t | e]; [ | reflexivity].
  destruct (color t) as [c | e]; [ | reflexivity].
  destruct (spawn _ (set_argv c)) as [rc' out' | ]; [ | reflexivity].
  rewrite <- app_assoc. reflexivity.
Qed.

Lemma cycle_read_raises (h h1 : history) (e : exn) :
  read_temp h = (h1, Raise e) ->
  cycle h = (queried h, Raise e) /\ cycle_events h = [CheckOutput status_argv].
Proof.
  intros Hr. unfold cycle_events. rewrite cycle_spec, Hr.
  rewrite read_temp_spec in Hr. injection Hr as <- _.
  split; [reflexivity | apply skipn_length_app].
Qed.

Lemma cycle_color_raises (h h1 : history) (t : obj) (e : exn) :
  read_temp h = (h1, Ok t) -> color t = Raise e ->
  cycle h = (queried h, Raise e) /\ cycle_events h = [CheckOutput status_argv].
Proof.
  intros Hr Hc. unfold cycle_events. rewrite cycle_spec, Hr, Hc.
  rewrite read_temp_spec in Hr. injection Hr as <- _.
  split; [reflexivity | apply skipn_length_app].
Qed.

(** Once a colour is decided the set-colour command is started, whether or
    not it can run, and whatever it returns. *)
Lemma cycle_color_decided (h h1 : history) (t : obj) (c : string) :
  read_temp h = (h1, Ok t) -> color t = Ok c ->
  set_colors (cycle_events h) = [set_argv c] /\
  (cycle h = (cycled h c, Ok tt) \/
   cycle h = ((h ++ [CheckOutput status_argv; Run (set_argv c)])%list,
              Raise OSError)).
Proof.
  intros Hr Hc. unfold cycle_events. rewrite cycle_spec, Hr, Hc.
  rewrite read_temp_spec in Hr. injection Hr as <- _.
  destruct (spawn _ (set_argv c)) as [rc out | ]; cbn [fst];
    rewrite <- app_assoc; rewrite skipn_length_app;
    (split; [reflexivity | ]); [left | right]; reflexivity.
Qed.

(** Every cycle is of one of three kinds. *)
Lemma cycle_kinds (h : history) :
  (exists e, cycle h = (queried h, Raise e) /\
             cycle_events h = [CheckOutput status_argv]) \/
  (exists t c, read_temp h = (queried h, Ok t) /\ color t = Ok c /\
               cycle h = ((h ++ [CheckOutput status_argv; Run (set_argv c)])%list,
                          Raise OSError) /\
               cycle_events h = [CheckOutput status_argv; Run (set_argv c)]) \/
  (exists t c, read_temp h = (queried h, Ok t) /\ color t = Ok c /\
               cycle h = (cycled h c, Ok tt) /\
               cycle_events h =
                 [CheckOutput status_argv; Run (set_argv c); Sleep 60]).
Proof.
  destruct (read_temp h) as [h1 [t | e]] eqn:Hr.
  - assert (h1 = queried h) as ->
        by (rewrite read_temp_spec in Hr; injection Hr as <- _; reflexivity).
    destruct (color t) as [c | e] eqn:Hc.
    + right. unfold cycle_events. rewrite cycle_spec, Hr, Hc.
      destruct (spawn _ (set_argv c)) as [rc out | ]; [right | left];
        exists t, c; rewrite <- app_assoc; cbn [fst];
        rewrite skipn_length_app; auto.
    + left. exists e. exact (cycle_color_raises h _ t e Hr Hc).
  - left. exists e. exact (cycle_read_raises h h1 e Hr).
Qed.

(** ** The loop *)

Lemma main_raise (fuel : nat) (h h' : history) (e : exn) :
  cycle h = (h', Raise e) -> main (S fuel) h = (h', Terminated e).
Proof. intros H. cbn [main]. rewrite H. reflexivity. Qed.

Lemma main_next (fuel : nat) (h h' : history) (u : unit) :
  cycle h = (h', Ok u) -> main (S fuel) h = main fuel h'.
Proof. intros H. cbn [main]. rewrite H. reflexivity. Qed.

(** A run that is still going after [k] cycles and whose next cycle raises
    ends there, however long it is followed. *)
Lemma main_terminates_at (k : nat) (h h1 h2 : history) (e : exn) :
  main k h = (h1, Running) ->
  cycle h1 = (h2, Raise e) ->
  forall fuel, (k < fuel)%nat -> main fuel h = (h2, Terminated e).
Proof.
  revert h. induction k as [ | k IH]; intros h Hk Hc fuel Hlt.
  - cbn in Hk. injection Hk as <-.
    destruct fuel as [ | fuel]; [lia | ]. apply main_raise. exact Hc.
  - destruct fuel as [ | fuel]; [lia | ].
    cbn [main] in Hk |- *.
    destruct (cycle h) as [h' [u | e']].
    + apply IH; [exact Hk | exact Hc | lia].
    + discriminate Hk.
Qed.

(** ** What the cycle and the loop guarantee *)

Lemma no_first_entry (status : obj) :
  zero_blocks status = true \/ zero_entries status = true ->
  liquid_temp status = Raise IndexError.
Proof.
  intros [H | H].
  - destruct status as [ | | | | | [ | b bs] | ]; try discriminate H.
    reflexivity.
  - destruct status as [ | | | | | [ | [ | | | | | | kvs] bs] | ];
      try discriminate H.
    cbn in H. unfold liquid_temp. cbn.
    destruct (dict_get "status" kvs) as [[ | | | | | [ | x xs] | ] | ];
      try discriminate H.
    reflexivity.
Qed.

(** C3. When the decoded status output has no device block, or its first
    block has no status entry, indexing raises [IndexError], a
    Malformed-Output failure: the cycle ends right after the query, no
    set-colour command is started, and a run that has reached this cycle
    terminates on it, however much longer it is followed. *)
Theorem empty_report_is_malformed (h : history) (out : string) (status : obj) :
  spawn h status_argv = Exited 0 out ->
  json_loads out = Ok status ->
  zero_blocks status = true \/ zero_entries status = true ->
  cycle h = (queried h, Raise IndexError) /\
  classify IndexError = MalformedOutput /\
  set_colors (cycle_events h) = [] /\
  forall k h0,
    main k h0 = (h, Running) ->
    forall fuel, (k < fuel)%nat ->
                 main fuel h0 = (queried h, Terminated IndexError).
Proof.
  intros Hs Hj Hz.
  assert (Hr : read_temp h = (queried h, Raise IndexError)).
  { rewrite read_temp_spec, Hs, Hj. cbn. rewrite (no_first_entry _ Hz).
    reflexivity. }
  destruct (cycle_read_raises _ _ _ Hr) as [Hc He].
  split; [exact Hc | split; [reflexivity | split]].
  - rewrite He. reflexivity.
  - intros k h0 Hk. exact (main_terminates_at k h0 h _ _ Hk Hc).
Qed.

(** C4. When the status query exits nonzero, or exits with output that the
    decoder rejects, the cycle raises with the query as its only event: the
    set-colour command is not started. *)
Theorem failed_query_skips_set_color (h : history) (rc : Z) (out : string) :
  spawn h status_argv = Exited rc out ->
  rc <> 0 \/ (exists e, json_loads out = Raise e) ->
  (exists e, cycle h = (queried h, Raise e)) /\
  cycle_events h = [CheckOutput status_argv] /\
  set_colors (cycle_events h) = [].
Proof.
  intros Hs Hf.
  assert (Hr : exists e, read_temp h = (queried h, Raise e)).
  { rewrite read_temp_spec, Hs.
    destruct (Z.eqb_spec rc 0) as [-> | Hrc].
    - destruct Hf as [Hf | [e Hj]]; [contradiction Hf; reflexivity | ].
      exists e. rewrite Hj. reflexivity.
    - exists (CalledProcessError rc). reflexivity. }
  destruct Hr as [e Hr].
  destruct (cycle_read_raises _ _ _ Hr) as [Hc He].
  split; [exists e; exact Hc | split; [exact He | ]].
  rewrite He. reflexivity.
Qed.

(** C2, as the code has it.  A nonzero exit of the status query raises
    [CalledProcessError], which nothing catches: a run that has reached
    this cycle terminates on it.  A nonzero exit of the set-colour command is not looked at
    ([subprocess.run] without [check]): the cycle goes on to the sleep and
    the loop to its next cycle. *)
Theorem nonzero_exit (h : history) (rc : Z) (out : string) :
  rc <> 0 ->
  (spawn h status_argv = Exited rc out ->
   cycle h = (queried h, Raise (CalledProcessError rc)) /\
   forall k h0,
     main k h0 = (h, Running) ->
     forall fuel, (k < fuel)%nat ->
                  main fuel h0 = (queried h, Terminated (CalledProcessError rc))) /\
  (forall t c,
     read_temp h = (queried h, Ok t) -> color t = Ok c ->
     spawn (queried h) (set_argv c) = Exited rc out ->
     cycle h = (cycled h c, Ok tt) /\
     forall fuel, main (S fuel) h = main fuel (cycled h c)).
Proof.
  intros Hrc. split.
  - intros Hs.
    assert (Hr : read_temp h = (queried h, Raise (CalledProcessError rc))).
    { rewrite read_temp_spec, Hs.
      destruct (Z.eqb_spec rc 0) as [Heq | _]; [contradiction | reflexivity]. }
    destruct (cycle_read_raises _ _ _ Hr) as [Hc _].
    split; [exact Hc | ].
    intros k h0 Hk. exact (main_terminates_at k h0 h _ _ Hk Hc).
  - intros t c Hr Hc Hs.
    assert (Hcy : cycle h = (cycled h c, Ok tt)).
    { rewrite cycle_spec, Hr, Hc, Hs. rewrite <- app_assoc. reflexivity. }
    split; [exact Hcy | intros fuel; apply (main_next _ _ _ tt); exact Hcy].
Qed.

(** C7. A cycle that completes has started exactly two processes, the
    status query and then the set-colour command, with one of the two
    colours and whatever the history before it, and has then slept 60
    seconds; the next cycle starts from there. *)
Theorem successful_cycle (h : history) :
  snd (cycle h) = Ok tt ->
  exists c,
    (c = "0080ff" \/ c = "ff0000") /\
    cycle_events h = [CheckOutput status_argv; Run (set_argv c); Sleep 60] /\
    invocations (cycle_events h) = [status_argv; set_argv c] /\
    forall fuel, main (S fuel) h = main fuel (cycled h c).
Proof.
  intros Hok.
  destruct (cycle_kinds h) as [[e [Hc _]] | [[t [c [_ [_ [Hc _]]]]] | Hk]];
    try (rewrite Hc in Hok; discriminate Hok).
  destruct Hk as [t [c [_ [Hcol [Hc He]]]]].
  exists c. split; [exact (color_cases _ _ Hcol) | ].
  split; [exact He | split].
  - rewrite He. reflexivity.
  - intros fuel. apply (main_next _ _ _ tt). exact Hc.
Qed.

(** C8. Whatever set-colour command a cycle starts carries ['0080ff'] or
    ['ff0000']: six hexadecimal digits, nothing before or between them. *)
Theorem set_color_argument (h : history) (argv : list string) :
  In (Run argv) (cycle_events h) ->
  exists c,
    argv = set_argv c /\ (c = "0080ff" \/ c = "ff0000") /\ is_rgb_hex c = true.
Proof.
  intros Hin.
  assert (H : exists t c, color t = Ok c /\ argv = set_argv c).
  { destruct (cycle_kinds h)
      as [[e [_ He]] | [[t [c [_ [Hcol [_ He]]]]] | [t [c [_ [Hcol [_ He]]]]]]];
      rewrite He in Hin; cbn [In] in Hin.
    - destruct Hin as [Hin | []]. discriminate Hin.
    - destruct Hin as [Hin | [Hin | []]]; [discriminate Hin | ].
      injection Hin as <-. exists t, c. auto.
    - destruct Hin as [Hin | [Hin | [Hin | []]]]; try discriminate Hin.
      injection Hin as <-. exists t, c. auto. }
  destruct H as [t [c [Hcol ->]]].
  exists c. split; [reflexivity | ].
  destruct (color_cases _ _ Hcol) as [-> | ->]; split; auto.
Qed.

(** C10, as the code has it.  A reading that is neither a number nor a
    boolean (a string, null, a list, a dict) makes [<] raise [TypeError]:
    the cycle ends before the set-colour command.  A boolean is an int to
    Python, 0 or 1, and so is answered with ['0080ff']. *)
Theorem non_number_reading (h h1 : history) (v : obj) :
  read_temp h = (h1, Ok v) ->
  (is_json_number v = false -> is_json_boolean v = false ->
   lt_int v 40 = Raise TypeError /\
   cycle h = (queried h, Raise TypeError) /\
   set_colors (cycle_events h) = []) /\
  (is_json_boolean v = true ->
   color v = Ok "0080ff" /\
   set_colors (cycle_events h) = [set_argv "0080ff"]).
Proof.
  intros Hr. split.
  - intros Hn Hb.
    assert (Hlt : lt_int v 40 = Raise TypeError)
      by (destruct v; try discriminate Hn; try discriminate Hb; reflexivity).
    assert (Hc : color v = Raise TypeError)
      by (unfold color; rewrite Hlt; reflexivity).
    destruct (cycle_color_raises _ _ _ _ Hr Hc) as [Hcy He].
    split; [exact Hlt | split; [exact Hcy | rewrite He; reflexivity]].
  - intros Hb.
    assert (Hc : color v = Ok "0080ff")
      by (destruct v as [ | [ | ] | | | | | ]; try discriminate Hb; reflexivity).
    split; [exact Hc | ].
    exact (proj1 (cycle_color_decided _ _ _ _ Hr Hc)).
Qed.

(** ** Every way a cycle can fail, and the shape of a whole run *)

Lemma getitem_int_exceptions (o : obj) (i : Z) (e : exn) :
  getitem_int o i = Raise e -> e = IndexError \/ e = KeyError \/ e = TypeError.
Proof.
  unfold getitem_int.
  destruct o as [ | b | n | f | s | xs | kvs ]; intros H;
    try (injection H as <-; auto).
  - destruct (seq_index (list_ascii_of_string s) i);
      [discriminate H | injection H as <-; auto].
  - destruct (seq_index xs i); [discriminate H | injection H as <-; auto].
Qed.

Lemma getitem_str_exceptions (o : obj) (k : string) (e : exn) :
  getitem_str o k = Raise e -> e = KeyError \/ e = TypeError.
Proof.
  unfold getitem_str.
  destruct o as [ | b | n | f | s | xs | kvs ]; intros H;
    try (injection H as <-; auto).
  destruct (dict_get k kvs); [discriminate H | injection H as <-; auto].
Qed.

Lemma liquid_temp_exceptions (status : obj) (e : exn) :
  liquid_temp status = Raise e ->
  e = IndexError \/ e = KeyError \/ e = TypeError.
Proof.
  unfold liquid_temp. intros H.
  destruct (getitem_int status 0) as [block | e1] eqn:H1; cbn [Py.bind] in H;
    [ | injection H as <-; exact (getitem_int_exceptions _ _ _ H1)].
  destruct (getitem_str block "status") as [entries | e2] eqn:H2;
    cbn [Py.bind] in H;
    [ | injection H as <-; right; exact (getitem_str_exceptions _ _ _ H2)].
  destruct (getitem_int entries 0) as [entry | e3] eqn:H3; cbn [Py.bind] in H;
    [ | injection H as <-; exact (getitem_int_exceptions _ _ _ H3)].
  right. exact (getitem_str_exceptions _ _ _ H).
Qed.

(** X3. Whatever makes the walk to the reading fail, an empty sequence, a
    missing key or a value of the wrong type anywhere on the path, the
    exception is [IndexError], [KeyError] or [TypeError]; the cycle ends
    after the query, no set-colour command is started, and a run that has
    reached this cycle terminates on it with that exception. *)
Theorem unreadable_report_terminates
    (h : history) (out : string) (status : obj) (e : exn) :
  spawn h status_argv = Exited 0 out ->
  json_loads out = Ok status ->
  liquid_temp status = Raise e ->
  (e = IndexError \/ e = KeyError \/ e = TypeError) /\
  cycle h = (queried h, Raise e) /\
  cycle_events h = [CheckOutput status_argv] /\
  forall k h0,
    main k h0 = (h, Running) ->
    forall fuel, (k < fuel)%nat -> main fuel h0 = (queried h, Terminated e).
Proof.
  intros Hs Hj Hl.
  assert (Hr : read_temp h = (queried h, Raise e))
    by (rewrite read_temp_spec, Hs, Hj; cbn; rewrite Hl; reflexivity).
  destruct (cycle_read_raises _ _ _ Hr) as [Hc He].
  split; [exact (liquid_temp_exceptions _ _ Hl) | ].
  split; [exact Hc | split; [exact He | ]].
  intros k h0 Hk. exact (main_terminates_at k h0 h _ _ Hk Hc).
Qed.

(** X4. The six ways a cycle can raise, and no other: the status query cannot
    be started; it exits nonzero; the decoder rejects its output; the walk
    to the reading fails; the reading cannot be compared with 40; the
    set-colour command cannot be started.  Only the last leaves a second
    event in the history, and none leaves a sleep. *)
Theorem cycle_failure_modes (h h' : history) (e : exn) :
  cycle h = (h', Raise e) ->
  (h' = queried h /\
   ((spawn h status_argv = NotStarted /\ e = OSError) \/
    (exists rc out, spawn h status_argv = Exited rc out /\ rc <> 0 /\
                    e = CalledProcessError rc) \/
    (exists out, spawn h status_argv = Exited 0 out /\
                 json_loads out = Raise e) \/
    (exists out status, spawn h status_argv = Exited 0 out /\
                        json_loads out = Ok status /\
                        liquid_temp status = Raise e) \/
    (exists t, read_temp h = (queried h, Ok t) /\
               lt_int t 40 = Raise TypeError /\ e = TypeError))) \/
  (exists t c, read_temp h = (queried h, Ok t) /\ color t = Ok c /\
               spawn (queried h) (set_argv c) = NotStarted /\
               e = OSError /\
               h' = (h ++ [CheckOutput status_argv; Run (set_argv c)])%list).
Proof.
  rewrite cycle_spec. rewrite read_temp_spec.
  destruct (spawn h status_argv) as [rc out | ] eqn:Hs.
  - destruct (Z.eqb_spec rc 0) as [-> | Hrc].
    + destruct (json_loads out) as [status | e1] eqn:Hj; cbn [Py.bind].
      * destruct (liquid_temp status) as [t | e2] eqn:Hl.
        -- destruct (color t) as [c | e3] eqn:Hc.
           ++ destruct (spawn (queried h) (set_argv c)) as [rc' out' | ] eqn:Hs';
                intros H; [discriminate H | ].
              injection H as <- <-. right. exists t, c.
              rewrite <- app_assoc. auto.
           ++ intros H. injection H as <- <-. left. split; [reflexivity | ].
              do 4 right. exists t. split; [reflexivity | ].
              unfold color in Hc.
              destruct (lt_int t 40) as [b | e4] eqn:Hlt; [discriminate Hc | ].
              injection Hc as <-.
              destruct t; try discriminate Hlt; injection Hlt as <-; auto.
        -- intros H. injection H as <- <-. left. split; [reflexivity | ].
           do 3 right. left. exists out, status. auto.
      * intros H. injection H as <- <-. left. split; [reflexivity | ].
        do 2 right. left. exists out. auto.
    + intros H. injection H as <- <-. left. split; [reflexivity | ].
      right. left. exists rc, out. auto.
  - intros H. injection H as <- <-. left. split; [reflexivity | ]. left. auto.
Qed.

(** X5. Without an executable [liquidctl] the loop ends with [OSError]: at the
    status query, or, if the executable disappears between the two calls,
    at the set-colour command, after the attempt and before any sleep. *)
Theorem missing_executable (h : history) :
  (spawn h status_argv = NotStarted ->
   cycle h = (queried h, Raise OSError) /\
   forall k h0,
     main k h0 = (h, Running) ->
     forall fuel, (k < fuel)%nat ->
                  main fuel h0 = (queried h, Terminated OSError)) /\
  (forall t c,
     read_temp h = (queried h, Ok t) -> color t = Ok c ->
     spawn (queried h) (set_argv c) = NotStarted ->
     cycle_events h = [CheckOutput status_argv; Run (set_argv c)] /\
     forall k h0,
       main k h0 = (h, Running) ->
       forall fuel, (k < fuel)%nat ->
                    main fuel h0
                    = ((h ++ [CheckOutput status_argv; Run (set_argv c)])%list,
                       Terminated OSError)).
Proof.
  split.
  - intros Hs.
    assert (Hr : read_temp h = (queried h, Raise OSError))
      by (rewrite read_temp_spec, Hs; reflexivity).
    destruct (cycle_read_raises _ _ _ Hr) as [Hc _].
    split; [exact Hc | ].
    intros k h0 Hk. exact (main_terminates_at k h0 h _ _ Hk Hc).
  - intros t c Hr Hc Hs.
    assert (Hcy : cycle h
                  = ((h ++ [CheckOutput status_argv; Run (set_argv c)])%list,
                     Raise OSError))
      by (rewrite cycle_spec, Hr, Hc, Hs; rewrite <- app_assoc; reflexivity).
    split.
    + unfold cycle_events. rewrite Hcy. apply skipn_length_app.
    + intros k h0 Hk. exact (main_terminates_at k h0 h _ _ Hk Hcy).
Qed.


Lemma slept_app (evs evs' : list event) :
  slept (evs ++ evs')%list = slept evs + slept evs'.
Proof.
  induction evs as [ | ev evs IH]; [reflexivity | ].
  cbn [app slept fold_right] in *. fold (slept (evs ++ evs')%list).
  fold (slept evs). rewrite IH. destruct ev; lia.
Qed.

Lemma set_colors_app (evs evs' : list event) :
  set_colors (evs ++ evs')%list = (set_colors evs ++ set_colors evs')%list.
Proof. apply flat_map_app. Qed.

Lemma completed_cycles_snoc (cs : list string) (c : string) :
  completed_cycles (cs ++ [c])
  = (completed_cycles cs ++ completed_cycle c)%list.
Proof.
  unfold completed_cycles. rewrite flat_map_app. cbn [flat_map].
  rewrite app_nil_r. reflexivity.
Qed.

Lemma completed_cycles_count (cs : list string) :
  set_colors (completed_cycles cs) = map set_argv cs /\
  slept (completed_cycles cs) = 60 * Z.of_nat (List.length cs).
Proof.
  induction cs as [ | c cs [IH1 IH2]]; [split; reflexivity | ].
  change (completed_cycles (c :: cs))
    with (completed_cycle c ++ completed_cycles cs)%list.
  rewrite set_colors_app, slept_app, IH1, IH2. split; [reflexivity | ].
  cbn [List.length]. change (slept (completed_cycle c)) with 60. lia.
Qed.

Lemma main_running_cycles (k : nat) (h h' : history) :
  main k h = (h', Running) ->
  exists cs,
    List.length cs = k /\ Forall is_color cs /\
    h' = (h ++ completed_cycles cs)%list.
Proof.
  revert h. induction k as [ | k IH]; intros h Hk.
  - injection Hk as <-. exists []. rewrite app_nil_r. auto.
  - cbn [main] in Hk.
    destruct (cycle_kinds h)
      as [[e [Hc _]] | [[t [c [_ [_ [Hc _]]]]] | [t [c [_ [Hcol [Hc _]]]]]]];
      rewrite Hc in Hk; try discriminate Hk.
    destruct (IH _ Hk) as [cs [Hlen [Hall ->]]].
    exists (c :: cs). split; [cbn; lia | split].
    + constructor; [exact (color_cases _ _ Hcol) | exact Hall].
    + rewrite <- app_assoc. reflexivity.
Qed.

(** X8. A run that is still going after [k] cycles has added to the history
    exactly [k] times the three events query, set-colour, sleep, each with
    one of the two colours: [k] set-colour commands and [60 * k] seconds of
    sleep, and nothing else. *)
Theorem running_history (k : nat) (h h' : history) :
  main k h = (h', Running) ->
  exists cs,
    List.length cs = k /\ Forall is_color cs /\
    h' = (h ++ completed_cycles cs)%list /\
    set_colors (completed_cycles cs) = map set_argv cs /\
    slept (completed_cycles cs) = 60 * Z.of_nat k.
Proof.
  intros Hk. destruct (main_running_cycles k h h' Hk) as [cs [Hlen [Hall Hh]]].
  exists cs. destruct (completed_cycles_count cs) as [Hset Hsl].
  rewrite Hlen in Hsl. auto.
Qed.

(** X9. A run that has terminated consists of some completed cycles and one
    last, broken, cycle: the query alone, or the query and a set-colour
    command that could not be started.  Its last event is never a sleep,
    and it ended within the cycles followed. *)
Theorem terminated_history (fuel : nat) (h h' : history) (e : exn) :
  main fuel h = (h', Terminated e) ->
  exists cs,
    (List.length cs < fuel)%nat /\ Forall is_color cs /\
    (h' = (h ++ completed_cycles cs ++ [CheckOutput status_argv])%list \/
     exists c,
       e = OSError /\
       h' = (h ++ completed_cycles cs
               ++ [CheckOutput status_argv; Run (set_argv c)])%list).
Proof.
  revert h. induction fuel as [ | fuel IH]; intros h Hf; [discriminate Hf | ].
  cbn [main] in Hf.
  destruct (cycle_kinds h)
    as [[e1 [Hc _]] | [[t [c [_ [_ [Hc _]]]]] | [t [c [_ [Hcol [Hc _]]]]]]];
    rewrite Hc in Hf.
  - injection Hf as <- <-. exists []. split; [cbn; lia | split; [constructor | ]].
    left. reflexivity.
  - injection Hf as <- <-. exists []. split; [cbn; lia | split; [constructor | ]].
    right. exists c. auto.
  - destruct (IH _ Hf) as [cs [Hlen [Hall Hh]]].
    exists (c :: cs). split; [cbn; lia | split].
    + constructor; [exact (color_cases _ _ Hcol) | exact Hall].
    + change (completed_cycles (c :: cs))
        with (completed_cycle c ++ completed_cycles cs)%list.
      destruct Hh as [-> | [c' [-> ->]]]; [left | right; exists c'; split; auto];
        rewrite <- !app_assoc; reflexivity.
Qed.

(** X10. On a healthy machine the loop never stops: however long the run is
    followed, and whatever happened before, it is still running. *)
Theorem healthy_never_terminates :
  healthy ->
  forall fuel h, snd (main fuel h) = Running.
Proof.
  intros [Hq Hset] fuel. induction fuel as [ | fuel IH]; intros h; [reflexivity | ].
  destruct (Hq h) as [out [status [t [c [Hs [Hj [Hl Hc]]]]]]].
  assert (Hcy : cycle h = (cycled h c, Ok tt)).
  { rewrite cycle_spec, read_temp_spec, Hs, Hj. cbn. rewrite Hl, Hc.
    destruct (spawn (queried h) (set_argv c)) as [rc' out' | ] eqn:Hs'.
    - rewrite <- app_assoc. reflexivity.
    - exfalso. exact (Hset _ _ Hs'). }
  rewrite (main_next _ _ _ tt Hcy). apply IH.
Qed.

End Loop.

(** ** The double comparison against 40.0 *)

Example float_of_40 :
  float_of_int 40 = S754_finite false 5629499534213120 (-47).
Proof. reflexivity. Qed.

Lemma digits2_pos_bounds (m : positive) :
  2 ^ (Zpos (digits2_pos m) - 1) <= Zpos m < 2 ^ Zpos (digits2_pos m).
Proof.
  induction m as [p IH | p IH | ]; cbn [digits2_pos].
  - rewrite Pos2Z.inj_succ.
    replace (Z.succ (Z.pos (digits2_pos p)) - 1)
      with (Z.succ (Z.pos (digits2_pos p) - 1)) by lia.
    rewrite !Z.pow_succ_r by lia. lia.
  - rewrite Pos2Z.inj_succ.
    replace (Z.succ (Z.pos (digits2_pos p)) - 1)
      with (Z.succ (Z.pos (digits2_pos p) - 1)) by lia.
    rewrite !Z.pow_succ_r by lia. lia.
  - cbn. lia.
Qed.

(** A double's mantissa has at most 53 bits ... *)
Lemma double_mantissa_lt s m e :
  is_double (S754_finite s m e) = true -> Zpos m < 2 ^ 53.
Proof.
  unfold is_double, valid_binary, bounded, canonical_mantissa, fexp,
    SpecFloat.emin, prec, emax.
  intros H. apply andb_prop in H. destruct H as [H _].
  apply Z.eqb_eq in H.
  pose proof (digits2_pos_bounds m) as [_ Hlt].
  apply Z.lt_le_trans with (1 := Hlt).
  apply Z.pow_le_mono_r; lia.
Qed.

(** ... and exactly 53 above the subnormal exponent. *)
Lemma double_mantissa_normal s m e :
  is_double (S754_finite s m e) = true -> -1074 < e -> 2 ^ 52 <= Zpos m.
Proof.
  unfold is_double, valid_binary, bounded, canonical_mantissa, fexp,
    SpecFloat.emin, prec, emax.
  intros H He. apply andb_prop in H. destruct H as [H _].
  apply Z.eqb_eq in H.
  pose proof (digits2_pos_bounds m) as [Hle _].
  replace (Z.pos (digits2_pos m) - 1) with 52 in Hle by lia.
  exact Hle.
Qed.

Lemma inject_Z_neg (z : Z) : z < 0 -> (inject_Z z < 0)%Q.
Proof. intros H. unfold Qlt. cbn. lia. Qed.

Lemma Qscale_neg (x p : Q) : (x < 0 -> 0 < p -> x * p < 40)%Q.
Proof.
  intros Hx Hp.
  assert (x * p < 0 * p)%Q by (apply Qmult_lt_compat_r; assumption).
  lra.
Qed.

Lemma Qscale_small (x p : Q) :
  (x < 9007199254740992 -> 0 < p -> p <= 1 # 281474976710656 -> x * p < 40)%Q.
Proof.
  intros Hx Hp Hle.
  assert (x * p < 9007199254740992 * p)%Q
    by (apply Qmult_lt_compat_r; assumption).
  lra.
Qed.

Lemma Qscale_large (x p : Q) :
  (4503599627370496 <= x -> (1 # 70368744177664) <= p -> 40 <= x * p)%Q.
Proof.
  intros Hx Hp.
  assert (4503599627370496 * p <= x * p)%Q
    by (apply Qmult_le_compat_r; lra).
  lra.
Qed.

(** On finite doubles the IEEE order against 40.0 is the order of the
    rationals they denote.  40.0 is [5 * 2^50 * 2^-47]: a smaller exponent
    keeps the value under 32, a larger one puts it at 64 or more, and at
    the same exponent the mantissas decide. *)
Lemma SFltb_40_finite s m e :
  is_double (S754_finite s m e) = true ->
  SFltb (S754_finite s m e) (float_of_int 40) = true
  <-> (finite_value s m e < 40)%Q.
Proof.
  intros Hd.
  change (float_of_int 40) with (S754_finite false 5629499534213120 (-47)).
  unfold finite_value.
  assert (Hp : (0 < 2 ^ e)%Q) by (apply Qpower_0_lt; reflexivity).
  destruct s; cbn [SFltb SFcompare cond_Zopp].
  - split; [intros _ | reflexivity].
    apply Qscale_neg; [apply inject_Z_neg; lia | exact Hp].
  - pose proof (double_mantissa_lt _ _ _ Hd) as Hlt.
    destruct (Z.compare_spec e (-47)) as [-> | He | He].
    + change (2 ^ (-47))%Q with (1 # 140737488355328)%Q.
      rewrite Pos.compare_cont_spec. cbn [Pos.switch_Eq].
      unfold Qlt. cbn [Qnum Qden inject_Z Qmult].
      rewrite Z.mul_1_r.
      change (Z.pos (1 * 140737488355328)) with 140737488355328.
      rewrite Pos2Z.inj_compare.
      clear Hlt Hp Hd.
      destruct (Z.compare_spec (Z.pos m) 5629499534213120) as [Hc | Hc | Hc];
        (split; intros H; [try discriminate; try lia | try reflexivity; try lia]).
    + split; [intros _ | reflexivity].
      apply Qscale_small; [ | exact Hp | ].
      * rewrite Zlt_Qlt in Hlt. exact Hlt.
      * change (1 # 281474976710656)%Q with (2 ^ (-48))%Q.
        apply Qpower_le_compat_l; [lia | discriminate].
    + split; [discriminate | intros H; exfalso].
      pose proof (double_mantissa_normal _ _ _ Hd ltac:(lia)) as Hge.
      apply (Qlt_not_le _ _ H). apply Qscale_large.
      * rewrite Zle_Qle in Hge. exact Hge.
      * change (1 # 70368744177664)%Q with (2 ^ (-46))%Q.
        apply Qpower_le_compat_l; [lia | discriminate].
Qed.

(** The same for every reading that denotes a number. *)
Lemma lt_int_40_below (t : obj) (x : ext) :
  is_reading t = true -> reading_value t = Some x ->
  exists b, lt_int t 40 = Ok b /\ (b = true <-> below x 40).
Proof.
  intros Hr Hv.
  destruct t as [ | b | n | f | s | xs | kvs ]; try discriminate Hv.
  - injection Hv as <-. exists (n <? 40). split; [reflexivity | ].
    cbn [below]. rewrite Z.ltb_lt. rewrite Zlt_Qlt. reflexivity.
  - cbn [is_reading] in Hr. cbn [lt_int].
    exists (SFltb f (float_of_int 40)). split; [reflexivity | ].
    destruct f as [z | i | | s m e]; cbn [reading_value float_value] in Hv;
      try discriminate Hv; injection Hv as <-.
    + cbn. split; [reflexivity | intros _; reflexivity].
    + destruct i; cbn; split; intros H; try reflexivity; try discriminate;
        try contradiction; exact I.
    + apply SFltb_40_finite; exact Hr.
Qed.

Lemma below_or_at_least (x : ext) (q : Q) : below x q -> at_least x q -> False.
Proof.
  destruct x as [ | v | ]; cbn; intros Hb Ha; try contradiction.
  exact (Qlt_not_le _ _ Hb Ha).
Qed.

(** ** The colour decision *)

(** C1. A reading that denotes a number under 40.0 is answered with
    ['0080ff'], one that denotes 40.0 or more with ['ff0000']; the
    threshold itself is on the red side.  Readings are the ints and the
    doubles, the infinities included. *)
Theorem color_threshold (t : obj) (x : ext) :
  is_reading t = true ->
  reading_value t = Some x ->
  (below x 40 -> color t = Ok "0080ff") /\
  (at_least x 40 -> color t = Ok "ff0000").
Proof.
  intros Hr Hv.
  destruct (lt_int_40_below t x Hr Hv) as [b [Hlt Hb]].
  unfold color. rewrite Hlt. cbn [Py.bind].
  split.
  - intros Hx. apply Hb in Hx. rewrite Hx. reflexivity.
  - intros Hx. destruct b; [ | reflexivity].
    exfalso. apply (below_or_at_least x 40); [ | exact Hx].
    apply Hb. reflexivity.
Qed.

Lemma color_threshold_witness :
  is_reading forty = true /\
  reading_value forty = Some (Fin (finite_value false 5629499534213120 (-47))) /\
  at_least (Fin (finite_value false 5629499534213120 (-47))) 40 /\
  color forty = Ok "ff0000".
Proof.
  assert (Ha : at_least (Fin (finite_value false 5629499534213120 (-47))) 40)
    by (apply Qle_bool_iff; reflexivity).
  split; [reflexivity | split; [reflexivity | split; [exact Ha | ]]].
  apply (color_threshold forty (Fin (finite_value false 5629499534213120 (-47))));
    [reflexivity | reflexivity | exact Ha].
Defined.

(** X7. Readings that denote the same number get the same colour, whatever
    their types: the int 40 and the double 40.0, or the two zeros. *)
Lemma color_same_number (t1 t2 : obj) (x1 x2 : ext) :
  is_reading t1 = true -> reading_value t1 = Some x1 ->
  is_reading t2 = true -> reading_value t2 = Some x2 ->
  same_number x1 x2 ->
  color t1 = color t2.
Proof.
  intros Hr1 Hv1 Hr2 Hv2 Hx.
  destruct (lt_int_40_below t1 x1 Hr1 Hv1) as [b1 [Hl1 Hb1]].
  destruct (lt_int_40_below t2 x2 Hr2 Hv2) as [b2 [Hl2 Hb2]].
  assert (Hsame : below x1 40 <-> below x2 40).
  { destruct x1 as [ | a | ], x2 as [ | b | ]; cbn in Hx |- *;
      try contradiction; try tauto.
    rewrite Hx. tauto. }
  unfold color. rewrite Hl1, Hl2. cbn [Py.bind].
  destruct b1, b2; try reflexivity; exfalso.
  - assert (H : false = true) by (apply Hb2, Hsame, Hb1; reflexivity).
    discriminate H.
  - assert (H : false = true) by (apply Hb1, Hsame, Hb2; reflexivity).
    discriminate H.
Qed.

(** C9. The decision tests [liquid_temp < 40] and nothing else, so whatever
    makes that test false is red.  NaN does: it is neither below 40.0 nor,
    by the IEEE order, at or above it. *)
Theorem color_nan_red :
  color (PyFloat S754_nan) = Ok "ff0000" /\
  SFleb (float_of_int 40) S754_nan = false /\
  (forall t : obj, lt_int t 40 = Ok false -> color t = Ok "ff0000").
Proof.
  split; [reflexivity | split; [reflexivity | ]].
  intros t H. unfold color. rewrite H. reflexivity.
Qed.

Lemma color_nan_red_witness :
  lt_int (PyFloat (S754_infinity false)) 40 = Ok false /\
  color (PyFloat (S754_infinity false)) = Ok "ff0000".
Proof.
  split; [reflexivity | ].
  apply (proj2 (proj2 color_nan_red)). reflexivity.
Defined.

Lemma not_below_at_least (x : ext) (q : Q) : ~ below x q -> at_least x q.
Proof.
  destruct x as [ | v | ]; cbn; intros H.
  - apply H. exact I.
  - apply Qnot_lt_le. exact H.
  - exact I.
Qed.

(** X6. The colours read backwards.  Blue is set only for a reading that
    denotes a number under 40.0; red only for one that denotes 40.0 or
    more, or for NaN, which denotes nothing. *)
Theorem color_meaning (t : obj) :
  is_reading t = true ->
  (color t = Ok "0080ff" <->
   exists x, reading_value t = Some x /\ below x 40) /\
  (color t = Ok "ff0000" <->
   reading_value t = None \/
   exists x, reading_value t = Some x /\ at_least x 40).
Proof.
  intros Hr.
  destruct (reading_value t) as [x | ] eqn:Hv.
  - destruct (lt_int_40_below t x Hr Hv) as [b [Hlt Hb]].
    unfold color. rewrite Hlt. cbn [Py.bind].
    destruct b; split; split.
    + intros _. exists x. split; [reflexivity | apply Hb; reflexivity].
    + reflexivity.
    + intros H. discriminate H.
    + intros [H | [y [Hy Ha]]]; [discriminate H | ].
      injection Hy as <-. exfalso.
      apply (below_or_at_least x 40); [apply Hb; reflexivity | exact Ha].
    + intros H. discriminate H.
    + intros [y [Hy Hbel]]. injection Hy as <-.
      apply Hb in Hbel. discriminate Hbel.
    + intros _. right. exists x. split; [reflexivity | ].
      apply not_below_at_least. intros Hbel. apply Hb in Hbel.
      discriminate Hbel.
    + reflexivity.
  - destruct t as [ | b | n | f | s | xs | kvs ]; try discriminate Hr;
      try discriminate Hv.
    destruct f as [z | i | | s m e]; try discriminate Hv.
    split; split.
    + intros H. discriminate H.
    + intros [y [Hy _]]. discriminate Hy.
    + intros _. left. reflexivity.
    + reflexivity.
Qed.

(** ** Which field is read, and what the decision depends on *)

Lemma first_value_liquid_temp (status v : obj) :
  first_value status = Some v -> liquid_temp status = Ok v.
Proof.
  intros H.
  destruct status as [ | | | | | [ | [ | | | | | | block] bs] | ];
    try discriminate H.
  cbn in H. unfold liquid_temp. cbn.
  destruct (dict_get "status" block)
    as [[ | | | | | [ | [ | | | | | | entry] es] | ] | ];
    try discriminate H.
  cbn. rewrite H. reflexivity.
Qed.

Lemma well_formed_first_value (status : obj) :
  well_formed status = true ->
  zero_blocks status = false -> zero_entries status = false ->
  exists v, first_value status = Some v.
Proof.
  intros Hw Hb He.
  destruct status as [ | | | | | [ | b bs] | ];
    try discriminate Hw; try discriminate Hb.
  cbn [well_formed forallb] in Hw. apply andb_prop in Hw. destruct Hw as [Hw _].
  destruct b as [ | | | | | | kvs]; try discriminate Hw.
  cbn in Hw, He |- *.
  destruct (dict_get "status" kvs) as [[ | | | | | [ | x xs] | ] | ];
    try discriminate Hw; try discriminate He.
  cbn [forallb] in Hw. apply andb_prop in Hw. destruct Hw as [Hw _].
  destruct x as [ | | | | | | entry]; try discriminate Hw.
  cbn in Hw. destruct (dict_get "value" entry) as [v | ]; [ | discriminate Hw].
  exists v. reflexivity.
Qed.

(** C6. On a well-formed status output with a first block and a first
    entry, the reading is the [value] field of that entry, and any document
    with the same field there gets the same decision. *)
Theorem reading_is_first_value (status : obj) :
  well_formed status = true ->
  zero_blocks status = false ->
  zero_entries status = false ->
  exists v,
    first_value status = Some v /\
    liquid_temp status = Ok v /\
    forall status',
      first_value status' = Some v ->
      (t <- liquid_temp status' ;; color t) = (t <- liquid_temp status ;; color t).
Proof.
  intros Hw Hb He.
  destruct (well_formed_first_value status Hw Hb He) as [v Hv].
  exists v. split; [exact Hv | ].
  pose proof (first_value_liquid_temp _ _ Hv) as Hl.
  split; [exact Hl | ].
  intros status' Hv'.
  rewrite (first_value_liquid_temp _ _ Hv'), Hl. reflexivity.
Qed.

(** C5. The colour handed to the set-colour command is a function of the
    reading alone: two cycles that read the same value, on whatever
    machines, with whatever decoders and after whatever histories, start
    the same set-colour commands, the one [color] gives for that value. *)
Theorem decision_depends_on_reading_only
    (spawn1 spawn2 : history -> list string -> child)
    (loads1 loads2 : string -> result obj)
    (h1 h2 h1' h2' : history) (t : obj) :
  read_temp spawn1 loads1 h1 = (h1', Ok t) ->
  read_temp spawn2 loads2 h2 = (h2', Ok t) ->
  set_colors (cycle_events spawn1 loads1 h1)
  = set_colors (cycle_events spawn2 loads2 h2) /\
  set_colors (cycle_events spawn1 loads1 h1)
  = match color t with
    | Ok c => [set_argv c]
    | Raise _ => []
    end.
Proof.
  intros Hr1 Hr2.
  destruct (color t) as [c | e] eqn:Hc.
  - rewrite (proj1 (cycle_color_decided _ _ _ _ _ _ Hr1 Hc)).
    rewrite (proj1 (cycle_color_decided _ _ _ _ _ _ Hr2 Hc)).
    split; reflexivity.
  - rewrite (proj2 (cycle_color_raises _ _ _ _ _ _ Hr1 Hc)).
    rewrite (proj2 (cycle_color_raises _ _ _ _ _ _ Hr2 Hc)).
    split; reflexivity.
Qed.

(** ** The theorems at work *)

(** The spec's scenarios A to D, on machines whose [liquidctl] behaves. *)
Example scenario_A :
  cycle (machine 0 (report_text "35.2") 0) decoder []
  = ([CheckOutput status_argv; Run (set_argv "0080ff"); Sleep 60], Ok tt).
Proof. reflexivity. Qed.

Example scenario_B :
  cycle (machine 0 (report_text "40.0") 0) decoder []
  = ([CheckOutput status_argv; Run (set_argv "ff0000"); Sleep 60], Ok tt).
Proof. reflexivity. Qed.

Example scenario_C :
  cycle (machine 0 (report_text "55.9") 0) decoder []
  = ([CheckOutput status_argv; Run (set_argv "ff0000"); Sleep 60], Ok tt).
Proof. reflexivity. Qed.

Example scenario_D :
  main (machine 0 "[]" 0) decoder 3 []
  = ([CheckOutput status_argv], Terminated IndexError).
Proof. reflexivity. Qed.

(** Without [liquidctl] the first query already ends the loop. *)
Example no_liquidctl :
  main bare_machine decoder 3 []
  = ([CheckOutput status_argv], Terminated OSError).
Proof. reflexivity. Qed.

(** C2 as written fails: the set-colour command exits with 1, and the cycle
    completes all the same and the loop runs its next cycle. *)
Lemma set_color_exit_ignored :
  machine 0 (report_text "35.2") 1 [CheckOutput status_argv] (set_argv "0080ff")
  = Exited 1 EmptyString /\
  cycle (machine 0 (report_text "35.2") 1) decoder []
  = ([CheckOutput status_argv; Run (set_argv "0080ff"); Sleep 60], Ok tt) /\
  main (machine 0 (report_text "35.2") 1) decoder 2 []
  = ([CheckOutput status_argv; Run (set_argv "0080ff"); Sleep 60;
      CheckOutput status_argv; Run (set_argv "0080ff"); Sleep 60], Running).
Proof. repeat split. Qed.

Lemma nonzero_exit_witness :
  main (worn_machine 1 1 EmptyString) decoder 5 []
  = ([CheckOutput status_argv; Run (set_argv "0080ff"); Sleep 60;
      CheckOutput status_argv], Terminated (CalledProcessError 1)) /\
  (cycle (machine 0 (report_text "35.2") 1) decoder []
   = ([CheckOutput status_argv; Run (set_argv "0080ff"); Sleep 60], Ok tt) /\
   forall fuel,
     main (machine 0 (report_text "35.2") 1) decoder (S fuel) []
     = main (machine 0 (report_text "35.2") 1) decoder fuel
         [CheckOutput status_argv; Run (set_argv "0080ff"); Sleep 60]).
Proof.
  split.
  - apply (proj2 (proj1 (nonzero_exit (worn_machine 1 1 EmptyString) decoder
                           [CheckOutput status_argv; Run (set_argv "0080ff");
                            Sleep 60]
                           1 EmptyString ltac:(lia))
                   eq_refl) 1%nat []);
      [reflexivity | lia].
  - apply (proj2 (nonzero_exit (machine 0 (report_text "35.2") 1) decoder []
                    1 EmptyString ltac:(lia)) cool "0080ff");
      reflexivity.
Defined.

Lemma empty_report_is_malformed_witness :
  (zero_blocks (PyList []) = true \/ zero_entries (PyList []) = true) /\
  main (worn_machine 1 0 "[]") decoder 5 []
  = ([CheckOutput status_argv; Run (set_argv "0080ff"); Sleep 60;
      CheckOutput status_argv], Terminated IndexError) /\
  cycle (machine 0 no_entries_text 0) decoder []
  = ([CheckOutput status_argv], Raise IndexError).
Proof.
  split; [left; reflexivity | split].
  - apply (proj2 (proj2 (proj2
             (empty_report_is_malformed (worn_machine 1 0 "[]") decoder
                [CheckOutput status_argv; Run (set_argv "0080ff"); Sleep 60]
                "[]" (PyList []) eq_refl eq_refl (or_introl eq_refl))))
             1%nat []);
      [reflexivity | lia].
  - apply (empty_report_is_malformed (machine 0 no_entries_text 0) decoder []
             no_entries_text (PyList [PyDict [("status", PyList [])]]));
      [reflexivity | reflexivity | right; reflexivity].
Defined.

Lemma failed_query_skips_set_color_witness :
  cycle_events (machine 3 EmptyString 0) decoder [] = [CheckOutput status_argv] /\
  cycle_events (machine 0 "h100i" 0) decoder [] = [CheckOutput status_argv].
Proof.
  split.
  - apply (failed_query_skips_set_color (machine 3 EmptyString 0) decoder []
             3 EmptyString);
      [reflexivity | left; lia].
  - apply (failed_query_skips_set_color (machine 0 "h100i" 0) decoder []
             0 "h100i");
      [reflexivity | right; exists ValueError; reflexivity].
Defined.

(** The second of two cycles that decide the same colour sets it again. *)
Lemma successful_cycle_witness :
  snd (cycle (machine 0 (report_text "35.2") 0) decoder
         [CheckOutput status_argv; Run (set_argv "0080ff"); Sleep 60]) = Ok tt /\
  exists c,
    (c = "0080ff" \/ c = "ff0000") /\
    cycle_events (machine 0 (report_text "35.2") 0) decoder
      [CheckOutput status_argv; Run (set_argv "0080ff"); Sleep 60]
    = [CheckOutput status_argv; Run (set_argv c); Sleep 60].
Proof.
  split; [reflexivity | ].
  destruct (successful_cycle (machine 0 (report_text "35.2") 0) decoder
              [CheckOutput status_argv; Run (set_argv "0080ff"); Sleep 60]
              eq_refl) as [c [Hc [He _]]].
  exists c. split; [exact Hc | exact He].
Defined.

Lemma set_color_argument_witness :
  In (Run (set_argv "ff0000"))
     (cycle_events (machine 0 (report_text "55.9") 0) decoder []) /\
  exists c,
    set_argv "ff0000" = set_argv c /\
    (c = "0080ff" \/ c = "ff0000") /\ is_rgb_hex c = true.
Proof.
  assert (Hin : In (Run (set_argv "ff0000"))
                   (cycle_events (machine 0 (report_text "55.9") 0) decoder []))
    by (right; left; reflexivity).
  split; [exact Hin | ].
  exact (set_color_argument (machine 0 (report_text "55.9") 0) decoder []
           (set_argv "ff0000") Hin).
Defined.

(** C10 as written fails: the reading is the JSON boolean [true], not a
    number, and a colour is derived from it and set. *)
Lemma boolean_reading_gets_color :
  liquid_temp (report (PyBool true)) = Ok (PyBool true) /\
  is_json_number (PyBool true) = false /\
  color (PyBool true) = Ok "0080ff" /\
  cycle (machine 0 (report_text "true") 0) decoder []
  = ([CheckOutput status_argv; Run (set_argv "0080ff"); Sleep 60], Ok tt).
Proof. repeat split. Qed.

Lemma non_number_reading_witness :
  (lt_int PyNone 40 = Raise TypeError /\
   cycle (machine 0 (report_text "null") 0) decoder []
   = ([CheckOutput status_argv], Raise TypeError) /\
   set_colors (cycle_events (machine 0 (report_text "null") 0) decoder []) = []) /\
  (color (PyBool true) = Ok "0080ff" /\
   set_colors (cycle_events (machine 0 (report_text "true") 0) decoder [])
   = [set_argv "0080ff"]).
Proof.
  split.
  - apply (proj1 (non_number_reading (machine 0 (report_text "null") 0) decoder
                    [] [CheckOutput status_argv] PyNone eq_refl));
      reflexivity.
  - apply (proj2 (non_number_reading (machine 0 (report_text "true") 0) decoder
                    [] [CheckOutput status_argv] (PyBool true) eq_refl)).
    reflexivity.
Defined.

Lemma reading_is_first_value_witness :
  well_formed (report cool) = true /\
  exists v, first_value (report cool) = Some v /\ liquid_temp (report cool) = Ok v.
Proof.
  split; [reflexivity | ].
  destruct (reading_is_first_value (report cool) eq_refl eq_refl eq_refl)
    as [v [Hv [Hl _]]].
  exists v. split; [exact Hv | exact Hl].
Defined.

(** The same reading, 40.0, on two machines and after two histories. *)
Lemma decision_depends_on_reading_only_witness :
  set_colors (cycle_events (machine 0 (report_text "40.0") 0) decoder [])
  = set_colors (cycle_events (machine 0 (report_text "40.0") 9) decoder
                  [CheckOutput status_argv; Run (set_argv "0080ff"); Sleep 60]).
Proof.
  apply (decision_depends_on_reading_only
           (machine 0 (report_text "40.0") 0) (machine 0 (report_text "40.0") 9)
           decoder decoder
           [] [CheckOutput status_argv; Run (set_argv "0080ff"); Sleep 60]
           [CheckOutput status_argv]
           [CheckOutput status_argv; Run (set_argv "0080ff"); Sleep 60;
            CheckOutput status_argv]
           forty);
    reflexivity.
Defined.

(** ** More on the walk to the reading *)

(** X1. The walk succeeds on exactly the documents that have the expected path:
    a list whose first item is a dict, whose [status] is a list, whose first
    item is a dict with a [value].  A str in the place of a list is indexed
    like one, but what it yields has no keys. *)
Theorem liquid_temp_ok_iff (status v : obj) :
  liquid_temp status = Ok v <-> first_value status = Some v.
Proof.
  split; [ | apply first_value_liquid_temp].
  unfold liquid_temp. intros H.
  destruct status as [ | | | | s | [ | b bs] | ]; try discriminate H.
  - destruct s as [ | a s']; cbn in H; discriminate H.
  - cbn in H.
    destruct b as [ | | | | | | block]; try discriminate H.
    cbn in H |- *.
    destruct (dict_get "status" block)
      as [[ | | | | s | [ | x xs] | ] | ]; try discriminate H.
    + destruct s as [ | a s']; cbn in H; discriminate H.
    + cbn in H.
      destruct x as [ | | | | | | entry]; try discriminate H.
      cbn in H.
      destruct (dict_get "value" entry) as [v' | ]; [ | discriminate H].
      injection H as <-. reflexivity.
Qed.

Lemma liquid_temp_ok_iff_witness :
  liquid_temp (report hot) = Ok hot /\ first_value (report hot) = Some hot.
Proof.
  split.
  - apply (proj2 (liquid_temp_ok_iff (report hot) hot)). reflexivity.
  - apply (proj1 (liquid_temp_ok_iff (report hot) hot)). reflexivity.
Defined.

(** X2. A first block without a [status] key, or a first entry without a
    [value] key, is a [KeyError], whatever else the document holds. *)
Theorem missing_field_is_key_error
    (block : list (string * obj)) (blocks : list obj) :
  (dict_get "status" block = None ->
   liquid_temp (PyList (PyDict block :: blocks)) = Raise KeyError) /\
  (forall entry entries,
     dict_get "status" block = Some (PyList (PyDict entry :: entries)) ->
     dict_get "value" entry = None ->
     liquid_temp (PyList (PyDict block :: blocks)) = Raise KeyError).
Proof.
  split.
  - intros H. unfold liquid_temp. cbn. rewrite H. reflexivity.
  - intros entry entries Hs Hv. unfold liquid_temp. cbn. rewrite Hs. cbn.
    rewrite Hv. reflexivity.
Qed.

Lemma missing_field_is_key_error_witness :
  liquid_temp (PyList [PyDict [("description", PyStr "h100i")]])
  = Raise KeyError /\
  liquid_temp
    (PyList [PyDict [("status", PyList [PyDict [("key", PyStr "Liquid temperature")]])]])
  = Raise KeyError.
Proof.
  split.
  - apply (proj1 (missing_field_is_key_error
                    [("description", PyStr "h100i")] [])).
    reflexivity.
  - apply (proj2 (missing_field_is_key_error
                    [("status", PyList [PyDict [("key", PyStr "Liquid temperature")]])]
                    [])
             [("key", PyStr "Liquid temperature")] []);
      reflexivity.
Defined.

Lemma color_meaning_witness :
  is_reading cool = true /\ color cool = Ok "0080ff" /\
  exists x, reading_value cool = Some x /\ below x 40.
Proof.
  split; [reflexivity | split; [reflexivity | ]].
  apply (proj1 (proj1 (color_meaning cool eq_refl))). reflexivity.
Defined.

(** The int 40 and the double 40.0. *)
Lemma color_same_number_witness :
  same_number (Fin (inject_Z 40))
              (Fin (finite_value false 5629499534213120 (-47))) /\
  color (PyInt 40) = color forty.
Proof.
  split; [reflexivity | ].
  apply (color_same_number (PyInt 40) forty (Fin (inject_Z 40))
           (Fin (finite_value false 5629499534213120 (-47))));
    reflexivity.
Defined.

(** ** Failing cycles and whole runs, at work *)

(** A device block without a [status] field. *)
Lemma unreadable_report_terminates_witness :
  liquid_temp (PyList [PyDict []]) = Raise KeyError /\
  cycle (machine 0 "[{}]" 0) (fixed_decoder (PyList [PyDict []])) []
  = ([CheckOutput status_argv], Raise KeyError) /\
  main (machine 0 "[{}]" 0) (fixed_decoder (PyList [PyDict []])) 4 []
  = ([CheckOutput status_argv], Terminated KeyError).
Proof.
  split; [reflexivity | ].
  destruct (unreadable_report_terminates
              (machine 0 "[{}]" 0) (fixed_decoder (PyList [PyDict []]))
              [] "[{}]" (PyList [PyDict []]) KeyError
              eq_refl eq_refl eq_refl) as [_ [Hc [_ Hm]]].
  split; [exact Hc | ].
  apply (Hm 0%nat []); [reflexivity | lia].
Defined.

(** The executable goes missing between the two calls of a cycle: of the
    six ways to fail, only the last fits. *)
Lemma cycle_failure_modes_witness :
  cycle (vanishing_machine (report_text "55.9")) decoder []
  = ([CheckOutput status_argv; Run (set_argv "ff0000")], Raise OSError) /\
  exists t c,
    read_temp (vanishing_machine (report_text "55.9")) decoder []
    = ([CheckOutput status_argv], Ok t) /\
    color t = Ok c /\
    vanishing_machine (report_text "55.9") [CheckOutput status_argv] (set_argv c)
    = NotStarted.
Proof.
  split; [reflexivity | ].
  destruct (cycle_failure_modes
              (vanishing_machine (report_text "55.9")) decoder []
              [CheckOutput status_argv; Run (set_argv "ff0000")] OSError
              eq_refl) as [[Hh _] | [t [c [Hr [Hc [Hs _]]]]]].
  - discriminate Hh.
  - exists t, c. split; [exact Hr | split; [exact Hc | exact Hs]].
Defined.

Lemma missing_executable_witness :
  main bare_machine decoder 2 []
  = ([CheckOutput status_argv], Terminated OSError) /\
  cycle_events (vanishing_machine (report_text "35.2")) decoder []
  = [CheckOutput status_argv; Run (set_argv "0080ff")].
Proof.
  split.
  - apply (proj2 (proj1 (missing_executable bare_machine decoder []) eq_refl)
             0%nat []);
      [reflexivity | lia].
  - apply (proj2 (missing_executable
                    (vanishing_machine (report_text "35.2")) decoder [])
             cool "0080ff");
      reflexivity.
Defined.

(** Two cycles at 40.0 degrees. *)
Lemma running_history_witness :
  main (machine 0 (report_text "40.0") 0) decoder 2 []
  = (completed_cycles ["ff0000"; "ff0000"], Running) /\
  exists cs,
    List.length cs = 2%nat /\ Forall is_color cs /\
    set_colors (completed_cycles cs) = map set_argv cs /\
    slept (completed_cycles cs) = 120.
Proof.
  split; [reflexivity | ].
  destruct (running_history (machine 0 (report_text "40.0") 0) decoder 2 []
              (completed_cycles ["ff0000"; "ff0000"]) eq_refl)
    as [cs [Hlen [Hall [_ [Hset Hsl]]]]].
  exists cs. split; [exact Hlen | split; [exact Hall | split; [exact Hset | ]]].
  exact Hsl.
Defined.

(** One good cycle, then a status query that exits with 1. *)
Lemma terminated_history_witness :
  main (worn_machine 1 1 EmptyString) decoder 5 []
  = ((completed_cycles ["0080ff"] ++ [CheckOutput status_argv])%list,
     Terminated (CalledProcessError 1)) /\
  exists cs, (List.length cs < 5)%nat /\ Forall is_color cs.
Proof.
  split; [reflexivity | ].
  destruct (terminated_history (worn_machine 1 1 EmptyString) decoder 5 []
              (completed_cycles ["0080ff"] ++ [CheckOutput status_argv])%list
              (CalledProcessError 1) eq_refl)
    as [cs [Hlen [Hall _]]].
  exists cs. split; [exact Hlen | exact Hall].
Defined.

Lemma steady_machine_is_healthy :
  healthy (machine 0 (report_text "35.2") 0) decoder.
Proof.
  split.
  - intros h. exists (report_text "35.2"), (report cool), cool, "0080ff".
    repeat split.
  - intros h c. unfold machine.
    destruct (argv_eqb (set_argv c) status_argv); discriminate.
Defined.

Lemma healthy_never_terminates_witness :
  healthy (machine 0 (report_text "35.2") 0) decoder /\
  forall fuel,
    snd (main (machine 0 (report_text "35.2") 0) decoder fuel []) = Running.
Proof.
  split; [exact steady_machine_is_healthy | ].
  intros fuel.
  exact (healthy_never_terminates (machine 0 (report_text "35.2") 0) decoder
           steady_machine_is_healthy fuel []).
Defined.

